(** * tinky-status-message: the Unicode detector, the theme and the component

    A shallow embedding of
    - [src/utils/unicode.ts]              ([isUnicodeSupported]),
    - [src/themes/status-message-theme.ts] ([colorByVariant],
      [statusMessageTheme]),
    - [src/components/StatusMessage.tsx]  ([StatusMessage]).

    A JavaScript string is modelled by [string], read as its UTF-8
    bytes: every needle the code searches for is ASCII, and an ASCII
    byte occurs in UTF-8 only as the character itself, so substring
    tests agree with those on UTF-16 code units.  A JavaScript object
    used as a dictionary is a [gmap] with [string] keys;
    [string | undefined] is [option string]. *)

From Stdlib Require Import ZArith NArith Ascii String.
From stdpp Require Import base strings gmap fin_maps.

Local Open Scope string_scope.
Local Set Warnings "-register-all".

(** ** JavaScript string primitives used by the sources *)

Module Js.

(** [String.prototype.startsWith] restricted to position 0. *)
Fixpoint startsWith (s needle : string) {struct needle} : bool :=
  match needle, s with
  | EmptyString, _ => true
  | String _ _, EmptyString => false
  | String a needle', String b s' =>
      if Ascii.eqb a b then startsWith s' needle' else false
  end.

(** [String.prototype.includes]: does [needle] occur in [s] as a
    contiguous substring?  Comparison is exact (case-sensitive). *)
Fixpoint includes (s needle : string) : bool :=
  startsWith s needle ||
  match s with
  | EmptyString => false
  | String _ s' => includes s' needle
  end.

(** Lower-casing of one code unit: [A]..[Z] go to [a]..[z], every
    other code unit is kept. *)
Definition lowerChar (c : ascii) : ascii :=
  let n := Ascii.N_of_ascii c in
  if ((65 <=? n) && (n <=? 90))%N
  then Ascii.ascii_of_N (n + 32) else c.

(** [String.prototype.toLowerCase] on the ASCII letters.  No code
    point outside [U], [T], [F] lower-cases to one of the letters of
    the needle "utf-8", so this restriction decides the same
    [includes] test as the full Unicode mapping. *)
Fixpoint toLowerCase (s : string) : string :=
  match s with
  | EmptyString => EmptyString
  | String c s' => String (lowerChar c) (toLowerCase s')
  end.

(** [v || d] for [v : string | undefined] and a string [d]: the left
    operand when it is truthy (a non-empty string), else [d].
    [None] stands for [undefined]. *)
Definition orElse (v : option string) (d : string) : string :=
  match v with
  | Some s => if String.eqb s "" then d else s
  | None => d
  end.

(** [a === b] on two strings. *)
Definition strictEq (a b : string) : bool := String.eqb a b.

End Js.

(** ** [src/utils/unicode.ts] *)

(** [Record<string, string | undefined>]: a key may be absent, bound to
    [undefined] ([Some None]) or bound to a string ([Some (Some s)]). *)
Abbreviation Env := (gmap string (option string)).

(** Property read [env.key]: [undefined] for an absent key as well as
    for a key bound to [undefined]. *)
Definition getProp (env : Env) (key : string) : option string :=
  match env !! key with
  | Some v => v
  | None => None
  end.

Definition lang (env : Env) : string := Js.orElse (getProp env "LANG") "".

Definition hasUtf8Locale (env : Env) : bool :=
  Js.includes (Js.toLowerCase (lang env)) "utf-8".

Definition colorterm (env : Env) : string :=
  Js.orElse (getProp env "COLORTERM") "".

Definition termProgram (env : Env) : string :=
  Js.orElse (getProp env "TERM_PROGRAM") "".

Definition hasModernTerminal (env : Env) : bool :=
  Js.includes (colorterm env) "truecolor" ||
  Js.includes (colorterm env) "24bit" ||
  Js.includes (termProgram env) "vscode" ||
  Js.includes (termProgram env) "iTerm.app" ||
  Js.includes (termProgram env) "Terminal.app".

Definition platform (env : Env) : string :=
  Js.orElse (getProp env "platform") "".

Definition isWindows (env : Env) : bool := Js.strictEq (platform env) "win32".

Definition isUnicodeSupported (env : Env) : bool :=
  hasUtf8Locale env || hasModernTerminal env || negb (isWindows env).

(** The default parameter [env = {}]: a call without argument (or with
    [undefined]) runs the body on the empty object. *)
Definition isUnicodeSupported_call (arg : option Env) : bool :=
  isUnicodeSupported (default ∅ arg).

(** ** [src/types/status-message-types.ts] *)

(** [StatusMessageVariant]: the closed union
    ["info" | "success" | "error" | "warning"]. *)
Inductive StatusMessageVariant : Set := info | success | error | warning.

(** The string a variant is at run time; it is the key used to index
    [colorByVariant] and [iconByVariant]. *)
Definition variantKey (v : StatusMessageVariant) : string :=
  match v with
  | info => "info"
  | success => "success"
  | error => "error"
  | warning => "warning"
  end.

(** ** Style records and render trees (tinky, React) *)

(** Values stored in a style record. *)
Inductive JsValue : Set :=
| JsUndefined
| JsString (s : string)
| JsNumber (n : Z).

(** The value of an indexing expression [o[k]] on an object of strings. *)
Definition ofLookup (v : option string) : JsValue :=
  match v with
  | Some s => JsString s
  | None => JsUndefined
  end.

(** [BoxProps] and [TextProps]: attribute bags, keyed by attribute
    name.  The component only builds and forwards them. *)
Abbreviation Props := (gmap string JsValue).

(** The two host components of tinky the component instantiates. *)
Inductive ElementType : Set := Box | Text.

(** [ReactNode]: what may stand as the child of an element.  An element
    keeps its attributes and its [children] prop apart; several JSX
    children are an array. *)
Inductive ReactNode : Type :=
| RNull
| RString (s : string)
| RNumber (n : Z)
| RElement (type : ElementType) (props : Props) (children : ReactNode)
| RArray (items : list ReactNode).

(** Every node of a tree, in traversal (pre-)order: a node comes before
    its children, the items of an array from left to right. *)
Fixpoint nodes (t : ReactNode) : list ReactNode :=
  t ::
  match t with
  | RElement _ _ c => nodes c
  | RArray items =>
      (fix nodesOfItems (l : list ReactNode) : list ReactNode :=
         match l with
         | [] => []
         | x :: l' => (nodes x ++ nodesOfItems l')%list
         end) items
  | _ => []
  end.

(** ** [src/themes/status-message-theme.ts] *)

Module Theme.

Definition colorByVariant : gmap string string :=
  {[ "success" := "green";
     "error" := "red";
     "warning" := "yellow";
     "info" := "blue" ]}.

Record StatusMessageThemeProps : Set := { variant : StatusMessageVariant }.

(** The [styles] object of a component theme.  [container],
    [iconContainer] and [message] are declared without parameter and
    may be called with or without props ([None]: no argument);
    [icon] reads [props.variant]. *)
Record Styles : Type := {
  container : option StatusMessageThemeProps → Props;
  iconContainer : option StatusMessageThemeProps → Props;
  icon : StatusMessageThemeProps → Props;
  message : option StatusMessageThemeProps → Props;
}.

Record ComponentTheme : Type := { styles : Styles }.

Definition statusMessageTheme : ComponentTheme :=
  {| styles :=
       {| container := λ _, {[ "columnGap" := JsNumber 1 ]};
          iconContainer := λ _, {[ "flexShrink" := JsNumber 0 ]};
          icon := λ props,
            {[ "color" :=
                 ofLookup (colorByVariant !! variantKey (variant props)) ]};
          message := λ _, ∅ |} |}.

(** What [useComponentTheme] hands to the component: the four style
    records, ready to be spread. *)
Record ResolvedStyles : Type := {
  containerStyle : Props;
  iconContainerStyle : Props;
  iconStyle : Props;
  messageStyle : Props;
}.

(** The type of [useComponentTheme(name, defaultTheme, props)], the
    hook of tinky-theme (a dependency of the package) that the
    component calls. *)
Definition Hook : Type :=
  string → ComponentTheme → StatusMessageThemeProps → ResolvedStyles.

(** The style functions of a theme evaluated for a render: the props
    go to the [icon] slot, the other three slots are called without
    argument. *)
Definition resolveStyles (theme : ComponentTheme)
    (props : StatusMessageThemeProps) : ResolvedStyles :=
  {| containerStyle := container (styles theme) None;
     iconContainerStyle := iconContainer (styles theme) None;
     iconStyle := icon (styles theme) props;
     messageStyle := message (styles theme) None |}.

(** The hook in a host that installs no theme for the component: the
    default theme passed by the caller is the one resolved. *)
Definition useDefaultTheme : Hook :=
  λ _ defaultTheme props, resolveStyles defaultTheme props.

End Theme.

(** ** The symbol set of tinky-figures *)

Module Figures.

(** The four symbols of [useFigures()] the component reads; which
    glyph each one is belongs to tinky-figures. *)
Record t : Set := { info : string; tick : string; cross : string;
                    warning : string }.

End Figures.

(** ** [src/components/StatusMessage.tsx] *)

Module Component.

Record StatusMessageProps : Type := {
  children : ReactNode;
  variant : StatusMessageVariant;
}.

(** The object literal built on every render. *)
Definition iconByVariant (figures : Figures.t) : gmap string string :=
  {[ "info" := Figures.info figures;
     "success" := Figures.tick figures;
     "error" := Figures.cross figures;
     "warning" := Figures.warning figures ]}.

(** A JSX expression child [{icon}]: a string is a text child,
    [undefined] renders nothing. *)
Definition exprChild (v : option string) : ReactNode :=
  match v with
  | Some s => RString s
  | None => RNull
  end.

(** [StatusMessage].  The two hooks the body calls, imported from
    tinky-figures and tinky-theme, are arguments: [useFigures] is the
    symbol set [useFigures()] returns. *)
Definition StatusMessage (useFigures : Figures.t)
    (useComponentTheme : Theme.Hook)
    (props : StatusMessageProps) : ReactNode :=
  let figures := useFigures in
  let styles :=
    useComponentTheme "StatusMessage" Theme.statusMessageTheme
      {| Theme.variant := variant props |} in
  let iconByVariant := iconByVariant figures in
  let icon := iconByVariant !! variantKey (variant props) in
  RElement Box (Theme.containerStyle styles)
    (RArray
       [ RElement Box (Theme.iconContainerStyle styles)
           (RElement Text (Theme.iconStyle styles) (exprChild icon));
         RElement Text (Theme.messageStyle styles) (children props) ]).

End Component.

(** ** The detector as section 4.2 of the specification words it *)

Module Spec.

(** "Read KEY (default empty string)": the value bound to the key, the
    default when the key is absent or bound to [undefined]. *)
Definition readOr (env : Env) (key d : string) : string :=
  match env !! key with
  | Some (Some s) => s
  | _ => d
  end.

(** Steps 1 to 4, each tried only when the previous ones did not
    answer. *)
Definition detectorSteps (env : Env) : bool :=
  if Js.includes (Js.toLowerCase (readOr env "LANG" "")) "utf-8"
  then true
  else if Js.includes (readOr env "COLORTERM" "") "truecolor"
          || Js.includes (readOr env "COLORTERM" "") "24bit"
  then true
  else if Js.includes (readOr env "TERM_PROGRAM" "") "vscode"
          || Js.includes (readOr env "TERM_PROGRAM" "") "iTerm.app"
          || Js.includes (readOr env "TERM_PROGRAM" "") "Terminal.app"
  then true
  else if String.eqb (readOr env "platform" "") "win32"
  then false
  else true.

(** [needle] occurs in [s]: [s] splits as a prefix, the needle and a
    suffix. *)
Definition contains (s needle : string) : Prop :=
  ∃ pre post : string, s = pre +:+ needle +:+ post.

(** The three disjuncts of the "net effect" sentence. *)
Definition localeDeclaresUtf8 (env : Env) : Prop :=
  contains (Js.toLowerCase (readOr env "LANG" "")) "utf-8".

Definition recognizedModernTerminal (env : Env) : Prop :=
  contains (readOr env "COLORTERM" "") "truecolor" ∨
  contains (readOr env "COLORTERM" "") "24bit" ∨
  contains (readOr env "TERM_PROGRAM" "") "vscode" ∨
  contains (readOr env "TERM_PROGRAM" "") "iTerm.app" ∨
  contains (readOr env "TERM_PROGRAM" "") "Terminal.app".

Definition platformNotWindows (env : Env) : Prop :=
  readOr env "platform" "" ≠ "win32".

Definition flatDisjunction (env : Env) : Prop :=
  localeDeclaresUtf8 env ∨ recognizedModernTerminal env ∨
  platformNotWindows env.

(** Section 4.1: the colour of each variant. *)
Definition colorOf (v : StatusMessageVariant) : string :=
  match v with
  | info => "blue"
  | success => "green"
  | error => "red"
  | warning => "yellow"
  end.

(** Section 4.3, step 2: the symbol of each variant. *)
Definition selectedIcon (figures : Figures.t) (v : StatusMessageVariant)
    : string :=
  match v with
  | info => Figures.info figures
  | success => Figures.tick figures
  | error => Figures.cross figures
  | warning => Figures.warning figures
  end.

(** The keys the detector consults. *)
Definition consultedKeys : list string :=
  ["LANG"; "COLORTERM"; "TERM_PROGRAM"; "platform"].

End Spec.

(** ** Sample inputs *)

Module Sample.

(** [{}] *)
Definition noKeys : Env := ∅.

(** [{platform: "win32"}] *)
Definition onlyWin32 : Env := {[ "platform" := Some "win32" ]}.

(** Two mappings that differ on keys the detector does not consult. *)
Definition win32WithTerm : Env :=
  {[ "platform" := Some "win32"; "TERM" := Some "xterm-256color";
     "LC_ALL" := Some "en_US.UTF-8" ]}.

Definition win32WithHome : Env :=
  {[ "platform" := Some "win32"; "HOME" := None ]}.

(** [{platform: "win32", LANG: "C.UTF-8"}] *)
Definition win32Utf8 : Env :=
  {[ "platform" := Some "win32"; "LANG" := Some "C.UTF-8" ]}.

(** ASCII fallbacks of the four symbols. *)
Definition asciiFigures : Figures.t :=
  {| Figures.info := "i"; Figures.tick := "v"; Figures.cross := "x";
     Figures.warning := "!!" |}.

(** A second symbol set: same info and tick, other cross and warning. *)
Definition plainFigures : Figures.t :=
  {| Figures.info := "i"; Figures.tick := "v"; Figures.cross := "X";
     Figures.warning := "!" |}.

(** [{platform: "win32", TERM_PROGRAM: "vscode"}] *)
Definition win32Vscode : Env :=
  {[ "platform" := Some "win32"; "TERM_PROGRAM" := Some "vscode" ]}.

End Sample.

(** ** Properties of the string primitives *)

Section StringPrimitives.

Lemma startsWith_spec (s needle : string) :
  Js.startsWith s needle = true ↔ ∃ post, s = needle +:+ post.
Proof.
  revert s. induction needle as [|a needle IH]; intros s; simpl.
  - split; [intros _; by exists s | by intros _].
  - destruct s as [|b s].
    + split; [by intros ? | intros [post Hp]; discriminate Hp].
    + destruct (Ascii.eqb_spec a b) as [->|Hab].
      * rewrite IH. split; intros [post Hp]; exists post.
        -- by rewrite Hp.
        -- by injection Hp.
      * split; [by intros ? | intros [post Hp]; injection Hp; congruence].
Qed.

Lemma includes_spec (s needle : string) :
  Js.includes s needle = true ↔ Spec.contains s needle.
Proof.
  unfold Spec.contains. induction s as [|b s IH].
  - simpl. rewrite orb_false_r, startsWith_spec. split.
    + intros [post Hp]. by exists "", post.
    + intros [[|c pre] [post Hp]]; [by exists post | discriminate Hp].
  - cbn [Js.includes]. rewrite orb_true_iff, IH, startsWith_spec. split.
    + intros [[post Hp] | (pre & post & Hp)].
      * by exists "", post.
      * exists (String b pre), post. by rewrite Hp.
    + intros [[|c pre] [post Hp]].
      * left. by exists post.
      * right. exists pre, post. by injection Hp.
Qed.

Lemma includes_empty_needle (s : string) : Js.includes s "" = true.
Proof. by destruct s. Qed.

Lemma toLowerCase_length (s : string) :
  String.length (Js.toLowerCase s) = String.length s.
Proof. induction s; simpl; congruence. Qed.

Lemma lowerChar_idemp (c : ascii) :
  Js.lowerChar (Js.lowerChar c) = Js.lowerChar c.
Proof.
  destruct c as [[] [] [] [] [] [] [] []]; reflexivity.
Qed.

Lemma toLowerCase_idemp (s : string) :
  Js.toLowerCase (Js.toLowerCase s) = Js.toLowerCase s.
Proof.
  induction s as [|c s IH]; simpl; [done|].
  by rewrite lowerChar_idemp, IH.
Qed.

Lemma orElse_empty (v : option string) :
  Js.orElse v "" = match v with Some s => s | None => "" end.
Proof.
  destruct v as [s|]; simpl; [|done].
  by destruct (String.eqb_spec s "") as [->|].
Qed.

End StringPrimitives.

(** ** The detector: what it reads and what it returns *)

Section Detector.

Implicit Types (env : Env) (key : string).

(** [env.KEY || ""] is the spec's "read KEY (default empty string)":
    the empty string and [undefined] both fall back to the default. *)
Lemma orElse_getProp_readOr env key :
  Js.orElse (getProp env key) "" = Spec.readOr env key "".
Proof.
  rewrite orElse_empty. unfold getProp, Spec.readOr.
  by destruct (env !! key) as [[s|]|].
Qed.

(** The source's return expression over the four values read. *)
Lemma isUnicodeSupported_reads env :
  isUnicodeSupported env =
    Js.includes (Js.toLowerCase (Spec.readOr env "LANG" "")) "utf-8"
    || (Js.includes (Spec.readOr env "COLORTERM" "") "truecolor"
        || Js.includes (Spec.readOr env "COLORTERM" "") "24bit"
        || Js.includes (Spec.readOr env "TERM_PROGRAM" "") "vscode"
        || Js.includes (Spec.readOr env "TERM_PROGRAM" "") "iTerm.app"
        || Js.includes (Spec.readOr env "TERM_PROGRAM" "") "Terminal.app")
    || negb (String.eqb (Spec.readOr env "platform" "") "win32").
Proof.
  unfold isUnicodeSupported, hasUtf8Locale, hasModernTerminal, isWindows,
    lang, colorterm, termProgram, platform, Js.strictEq.
  by rewrite !orElse_getProp_readOr.
Qed.

(** The else-chain of the specification, each step falling through to
    the next, as one disjunction over the same reads. *)
Lemma detectorSteps_reads env :
  Spec.detectorSteps env =
    Js.includes (Js.toLowerCase (Spec.readOr env "LANG" "")) "utf-8"
    || (Js.includes (Spec.readOr env "COLORTERM" "") "truecolor"
        || Js.includes (Spec.readOr env "COLORTERM" "") "24bit"
        || Js.includes (Spec.readOr env "TERM_PROGRAM" "") "vscode"
        || Js.includes (Spec.readOr env "TERM_PROGRAM" "") "iTerm.app"
        || Js.includes (Spec.readOr env "TERM_PROGRAM" "") "Terminal.app")
    || negb (String.eqb (Spec.readOr env "platform" "") "win32").
Proof.
  unfold Spec.detectorSteps.
  destruct (Js.includes (Js.toLowerCase _) _); [done|].
  destruct (Js.includes _ "truecolor"); [done|].
  destruct (Js.includes _ "24bit"); [done|].
  destruct (Js.includes _ "vscode"); [done|].
  destruct (Js.includes _ "iTerm.app"); [done|].
  destruct (Js.includes _ "Terminal.app"); [done|].
  by destruct (String.eqb _ "win32").
Qed.

(** The result depends on the mapping only through the four reads. *)
Lemma isUnicodeSupported_ext env1 env2 :
  (∀ key, key ∈ Spec.consultedKeys →
          Spec.readOr env1 key "" = Spec.readOr env2 key "") →
  isUnicodeSupported env1 = isUnicodeSupported env2.
Proof.
  intros Hread. rewrite !isUnicodeSupported_reads.
  rewrite (Hread "LANG"), (Hread "COLORTERM"), (Hread "TERM_PROGRAM"),
    (Hread "platform"); [done | unfold Spec.consultedKeys; set_solver ..].
Qed.

Lemma readOr_agree env1 env2 key :
  env1 !! key = env2 !! key →
  Spec.readOr env1 key "" = Spec.readOr env2 key "".
Proof. unfold Spec.readOr. by intros ->. Qed.

(** A key bound to the empty string, bound to [undefined] or deleted
    reads the same, and the other keys are not disturbed. *)
Lemma readOr_insert_blank env key key' (v : option string) :
  v = Some "" ∨ v = None →
  Spec.readOr (<[key := v]> env) key' "" =
  Spec.readOr (delete key env) key' "".
Proof.
  intros Hv. unfold Spec.readOr.
  destruct (decide (key = key')) as [->|Hne].
  - rewrite lookup_insert_eq, lookup_delete_eq. by destruct Hv as [-> | ->].
  - by rewrite lookup_insert_ne, lookup_delete_ne.
Qed.

Lemma platform_not_win32 env :
  env !! "platform" ≠ Some (Some "win32") →
  Spec.readOr env "platform" "" ≠ "win32".
Proof.
  unfold Spec.readOr. intros Hne.
  destruct (env !! "platform") as [[s|]|]; [congruence | done | done].
Qed.

End Detector.

(** ** Properties of the detector *)

(** C1: for every env mapping, [isUnicodeSupported] follows the
    algorithm of section 4.2: true if the lower-cased LANG value
    (default empty string) contains "utf-8"; else true if COLORTERM
    contains "truecolor" or "24bit"; else true if TERM_PROGRAM contains
    "vscode", "iTerm.app" or "Terminal.app" (case-sensitive); else
    false if the platform value (default empty string) equals "win32",
    and true otherwise. *)
Theorem isUnicodeSupported_follows_steps (env : Env) :
  isUnicodeSupported env = Spec.detectorSteps env.
Proof.
  by rewrite isUnicodeSupported_reads, detectorSteps_reads.
Qed.

(** C6: the else-chain of steps 1 to 4 is equivalent to the flat
    disjunction: [isUnicodeSupported env] is true if and only if LANG
    declares UTF-8, or COLORTERM/TERM_PROGRAM matches a recognized
    modern terminal, or the platform value is not "win32"; and the
    chain of the specification is true under exactly the same
    condition. *)
Theorem isUnicodeSupported_flat_disjunction (env : Env) :
  (isUnicodeSupported env = true ↔ Spec.flatDisjunction env) ∧
  (Spec.detectorSteps env = true ↔ Spec.flatDisjunction env).
Proof.
  assert (Hflat : isUnicodeSupported env = true ↔ Spec.flatDisjunction env).
  { rewrite isUnicodeSupported_reads.
    unfold Spec.flatDisjunction, Spec.localeDeclaresUtf8,
      Spec.recognizedModernTerminal, Spec.platformNotWindows.
    rewrite !orb_true_iff, negb_true_iff, String.eqb_neq, !includes_spec.
    tauto. }
  split; [exact Hflat|].
  by rewrite <- Hflat, isUnicodeSupported_reads, detectorSteps_reads.
Qed.

(** C7: when the platform value is absent, [undefined] or any string
    other than "win32", [isUnicodeSupported] returns true whatever the
    other keys hold. *)
Theorem isUnicodeSupported_not_win32 (env : Env) :
  env !! "platform" ≠ Some (Some "win32") →
  isUnicodeSupported env = true.
Proof.
  intros Hne. rewrite isUnicodeSupported_reads.
  apply platform_not_win32, String.eqb_neq in Hne. rewrite Hne.
  apply orb_true_r.
Qed.

(** The instance of C7 the specification names:
    [isUnicodeSupported({})] is true. *)
Lemma isUnicodeSupported_empty_env :
  Sample.noKeys !! "platform" ≠ Some (Some "win32") ∧
  isUnicodeSupported Sample.noKeys = true.
Proof.
  split.
  - vm_compute. discriminate.
  - apply (isUnicodeSupported_not_win32 Sample.noKeys).
    vm_compute. discriminate.
Defined.

(** C8: when platform is "win32" and none of LANG, COLORTERM and
    TERM_PROGRAM carries a supporting value, [isUnicodeSupported]
    returns false. *)
Theorem isUnicodeSupported_win32_unsupported (env : Env) :
  env !! "platform" = Some (Some "win32") →
  hasUtf8Locale env = false →
  hasModernTerminal env = false →
  isUnicodeSupported env = false.
Proof.
  intros Hp Hl Ht. unfold isUnicodeSupported. rewrite Hl, Ht.
  unfold isWindows, platform, getProp. by rewrite Hp.
Qed.

(** The instance of C8 the specification names: the mapping whose only
    key is platform, bound to "win32". *)
Lemma isUnicodeSupported_only_win32 :
  Sample.onlyWin32 !! "platform" = Some (Some "win32") ∧
  hasUtf8Locale Sample.onlyWin32 = false ∧
  hasModernTerminal Sample.onlyWin32 = false ∧
  isUnicodeSupported Sample.onlyWin32 = false.
Proof.
  do 3 (split; [reflexivity|]).
  apply (isUnicodeSupported_win32_unsupported Sample.onlyWin32); reflexivity.
Defined.

(** C9: two env mappings that agree on the four keys LANG, COLORTERM,
    TERM_PROGRAM and platform (value or absence) get the same answer:
    no other key influences the result. *)
Theorem isUnicodeSupported_only_four_keys (env1 env2 : Env) :
  env1 !! "LANG" = env2 !! "LANG" →
  env1 !! "COLORTERM" = env2 !! "COLORTERM" →
  env1 !! "TERM_PROGRAM" = env2 !! "TERM_PROGRAM" →
  env1 !! "platform" = env2 !! "platform" →
  isUnicodeSupported env1 = isUnicodeSupported env2.
Proof.
  intros Hl Hc Ht Hp. apply isUnicodeSupported_ext.
  intros key Hkey. apply readOr_agree.
  unfold Spec.consultedKeys in Hkey.
  repeat (apply elem_of_cons in Hkey as [-> | Hkey]; [assumption|]).
  by apply elem_of_nil in Hkey.
Qed.

(** Two mappings that differ on TERM, LC_ALL and HOME only. *)
Lemma isUnicodeSupported_only_four_keys_example :
  Sample.win32WithTerm !! "LANG" = Sample.win32WithHome !! "LANG" ∧
  Sample.win32WithTerm !! "COLORTERM" = Sample.win32WithHome !! "COLORTERM" ∧
  Sample.win32WithTerm !! "TERM_PROGRAM"
    = Sample.win32WithHome !! "TERM_PROGRAM" ∧
  Sample.win32WithTerm !! "platform" = Sample.win32WithHome !! "platform" ∧
  Sample.win32WithTerm ≠ Sample.win32WithHome ∧
  isUnicodeSupported Sample.win32WithTerm
  = isUnicodeSupported Sample.win32WithHome.
Proof.
  do 4 (split; [reflexivity|]). split.
  - intros Heq. apply (f_equal (λ env : Env, env !! "TERM")) in Heq.
    vm_compute in Heq. discriminate Heq.
  - apply (isUnicodeSupported_only_four_keys
             Sample.win32WithTerm Sample.win32WithHome); reflexivity.
Defined.

(** C10: for each of the four consulted keys (LANG, COLORTERM,
    TERM_PROGRAM, platform) and every env mapping, binding the key to
    the empty string or to [undefined] gives the same answer as
    omitting the key. *)
Theorem isUnicodeSupported_blank_as_absent (env : Env) :
  Forall
    (λ key,
       isUnicodeSupported (<[key := Some ""]> env)
         = isUnicodeSupported (delete key env) ∧
       isUnicodeSupported (<[key := None]> env)
         = isUnicodeSupported (delete key env))
    Spec.consultedKeys.
Proof.
  apply Forall_forall. intros key _.
  split; apply isUnicodeSupported_ext; intros key' _;
    apply readOr_insert_blank; auto.
Qed.

(** Blanking LANG on a Windows mapping turns the answer to false, as
    deleting it does. *)
Example blank_LANG_on_win32 :
  isUnicodeSupported Sample.win32Utf8 = true ∧
  isUnicodeSupported (<["LANG" := Some ""]> Sample.win32Utf8) = false ∧
  isUnicodeSupported (<["LANG" := None]> Sample.win32Utf8) = false ∧
  isUnicodeSupported (delete "LANG" Sample.win32Utf8) = false.
Proof. repeat split; reflexivity. Qed.

(** The default parameter: a call without argument is a call on [{}]. *)
Example isUnicodeSupported_no_argument :
  isUnicodeSupported_call None = true.
Proof. reflexivity. Qed.

(** The literal cases of section 8 of the specification. *)
Example isUnicodeSupported_section8 :
  isUnicodeSupported {[ "LANG" := Some "en_US.UTF-8" ]} = true ∧
  isUnicodeSupported {[ "LANG" := Some "en_US.utf-8" ]} = true ∧
  isUnicodeSupported {[ "COLORTERM" := Some "truecolor" ]} = true ∧
  isUnicodeSupported {[ "TERM_PROGRAM" := Some "iTerm.app" ]} = true ∧
  isUnicodeSupported
    {[ "platform" := Some "win32"; "LANG" := Some "en_US.UTF-8" ]} = true ∧
  isUnicodeSupported
    {[ "platform" := Some "win32"; "TERM_PROGRAM" := Some "iterm.app" ]}
  = false.
Proof. repeat split; reflexivity. Qed.

(** ** Properties of the theme *)

Section ThemeClaims.

Import Theme.

(** C2: for every variant, the icon style function of the theme
    applied to [{variant}] returns exactly the record [{color: c}],
    [c] being blue for info, green for success, red for error and
    yellow for warning: [color] holds that string and no other key
    is bound. *)
Theorem icon_color_by_variant (v : StatusMessageVariant) :
  icon (styles statusMessageTheme) {| variant := v |}
    = {[ "color" := JsString (Spec.colorOf v) ]} ∧
  ∀ key : string,
    icon (styles statusMessageTheme) {| variant := v |} !! key
    = if decide (key = "color")
      then Some (JsString (Spec.colorOf v)) else None.
Proof.
  assert (Hrec : icon (styles statusMessageTheme) {| variant := v |}
                 = {[ "color" := JsString (Spec.colorOf v) ]})
    by (by destruct v).
  split; [exact Hrec|]. intros key. rewrite Hrec.
  case_decide as Hkey.
  - subst key. apply lookup_singleton_eq.
  - by apply lookup_singleton_ne.
Qed.

(** C5: [container()] always returns exactly [{columnGap: 1}],
    [iconContainer()] exactly [{flexShrink: 0}] and [message()]
    exactly the empty record; called with any props or with none,
    each returns the same record. *)
Theorem fixed_styles_ignore_variant :
  (∀ p, container (styles statusMessageTheme) p
        = {[ "columnGap" := JsNumber 1 ]}) ∧
  (∀ p, iconContainer (styles statusMessageTheme) p
        = {[ "flexShrink" := JsNumber 0 ]}) ∧
  (∀ p, message (styles statusMessageTheme) p = ∅) ∧
  (∀ p q,
     container (styles statusMessageTheme) p
       = container (styles statusMessageTheme) q ∧
     iconContainer (styles statusMessageTheme) p
       = iconContainer (styles statusMessageTheme) q ∧
     message (styles statusMessageTheme) p
       = message (styles statusMessageTheme) q).
Proof. repeat split. Qed.

End ThemeClaims.

(** ** Properties of the component *)

Section ComponentClaims.

Import Component.

Implicit Types (figures : Figures.t) (hook : Theme.Hook)
  (content : ReactNode) (v : StatusMessageVariant).

(** The per-render object [iconByVariant] is total on the variants. *)
Lemma iconByVariant_lookup figures v :
  iconByVariant figures !! variantKey v = Some (Spec.selectedIcon figures v).
Proof. by destruct v. Qed.

Lemma nodes_self (t : ReactNode) : t ∈ nodes t.
Proof. destruct t; by left. Qed.

(** The tree [StatusMessage] returns, whatever the theme hook
    resolves. *)
Lemma StatusMessage_tree figures hook content v :
  let styles :=
    hook "StatusMessage" Theme.statusMessageTheme {| Theme.variant := v |} in
  StatusMessage figures hook {| children := content; variant := v |}
  = RElement Box (Theme.containerStyle styles)
      (RArray
         [ RElement Box (Theme.iconContainerStyle styles)
             (RElement Text (Theme.iconStyle styles)
                (RString (Spec.selectedIcon figures v)));
           RElement Text (Theme.messageStyle styles) content ]).
Proof.
  intros styles. unfold StatusMessage. cbn [variant children].
  by rewrite iconByVariant_lookup.
Qed.

(** C3: for every variant and every content, the empty string
    included, [StatusMessage] emits exactly an outer container with
    the [container()] styles; its first child is the non-shrinking
    inner container with the [iconContainer()] styles, wrapping a text
    node with the selected icon and the [icon({variant})] styles; its
    second child is a text node with the content, verbatim, and the
    [message()] styles.  The first equation names the style functions
    of the theme, the second spells their records out, the third is
    the case of empty content. *)
Theorem StatusMessage_emits figures v content :
  StatusMessage figures Theme.useDefaultTheme
    {| children := content; variant := v |}
  = (let styles := Theme.styles Theme.statusMessageTheme in
     RElement Box (Theme.container styles None)
       (RArray
          [ RElement Box (Theme.iconContainer styles None)
              (RElement Text (Theme.icon styles {| Theme.variant := v |})
                 (RString (Spec.selectedIcon figures v)));
            RElement Text (Theme.message styles None) content ])) ∧
  StatusMessage figures Theme.useDefaultTheme
    {| children := content; variant := v |}
  = RElement Box {[ "columnGap" := JsNumber 1 ]}
      (RArray
         [ RElement Box {[ "flexShrink" := JsNumber 0 ]}
             (RElement Text {[ "color" := JsString (Spec.colorOf v) ]}
                (RString (Spec.selectedIcon figures v)));
           RElement Text ∅ content ]) ∧
  StatusMessage figures Theme.useDefaultTheme
    {| children := RString ""; variant := v |}
  = RElement Box {[ "columnGap" := JsNumber 1 ]}
      (RArray
         [ RElement Box {[ "flexShrink" := JsNumber 0 ]}
             (RElement Text {[ "color" := JsString (Spec.colorOf v) ]}
                (RString (Spec.selectedIcon figures v)));
           RElement Text ∅ (RString "") ]).
Proof.
  split; [apply StatusMessage_tree|].
  split; rewrite StatusMessage_tree; by destruct v.
Qed.

(** C4: for every variant and every symbol set with the four symbols
    info, tick, cross and warning, the icon is selected by
    info -> symbols.info, success -> symbols.tick,
    error -> symbols.cross, warning -> symbols.warning, and the
    output contains both that icon and the given content. *)
Theorem StatusMessage_icon_and_content figures hook v content :
  iconByVariant figures !! variantKey v
    = Some (match v with
            | info => Figures.info figures
            | success => Figures.tick figures
            | error => Figures.cross figures
            | warning => Figures.warning figures
            end) ∧
  RString (Spec.selectedIcon figures v)
    ∈ nodes (StatusMessage figures hook
               {| children := content; variant := v |}) ∧
  content
    ∈ nodes (StatusMessage figures hook
               {| children := content; variant := v |}).
Proof.
  split; [by destruct v|].
  rewrite StatusMessage_tree. cbn [nodes app]. split.
  - do 4 right. by left.
  - do 6 right. rewrite app_nil_r. apply nodes_self.
Qed.

(** The first test of the suite, on the ASCII symbols: the success
    message and its nodes in traversal order. *)
Example StatusMessage_success :
  nodes (StatusMessage Sample.asciiFigures Theme.useDefaultTheme
           {| children := RString "Success"; variant := success |})
  = let icon := RElement Text {[ "color" := JsString "green" ]} (RString "v") in
    let iconBox := RElement Box {[ "flexShrink" := JsNumber 0 ]} icon in
    let message := RElement Text ∅ (RString "Success") in
    [ RElement Box {[ "columnGap" := JsNumber 1 ]}
        (RArray [iconBox; message]);
      RArray [iconBox; message];
      iconBox; icon; RString "v"; message; RString "Success" ].
Proof. reflexivity. Qed.

End ComponentClaims.

(** ** More on the detector *)

Section DetectorMore.

Implicit Types (env : Env) (key : string).

Lemma append_assoc (a b c : string) : (a +:+ b) +:+ c = a +:+ (b +:+ c).
Proof.
  induction a as [|x a IH]; [done|].
  change (String x ((a +:+ b) +:+ c) = String x (a +:+ (b +:+ c))).
  by rewrite IH.
Qed.

Lemma toLowerCase_app (a b : string) :
  Js.toLowerCase (a +:+ b) = Js.toLowerCase a +:+ Js.toLowerCase b.
Proof.
  induction a as [|x a IH]; [done|].
  change (String (Js.lowerChar x) (Js.toLowerCase (a +:+ b))
          = String (Js.lowerChar x) (Js.toLowerCase a +:+ Js.toLowerCase b)).
  by rewrite IH.
Qed.

(** A needle found in [s] is found in [s] with text around it. *)
Lemma includes_app_mono (pre s post needle : string) :
  Js.includes s needle = true →
  Js.includes (pre +:+ s +:+ post) needle = true.
Proof.
  rewrite !includes_spec. intros (a & b & ->).
  exists (pre +:+ a), (b +:+ post). by rewrite !append_assoc.
Qed.

Lemma readOr_insert_eq env key (s : string) :
  Spec.readOr (<[key := Some s]> env) key "" = s.
Proof. unfold Spec.readOr. by rewrite lookup_insert_eq. Qed.

Lemma readOr_insert_ne env key key' (v : option string) :
  key ≠ key' →
  Spec.readOr (<[key := v]> env) key' "" = Spec.readOr env key' "".
Proof. intros Hne. unfold Spec.readOr. by rewrite lookup_insert_ne. Qed.

Lemma readOr_bound env key (s : string) :
  env !! key = Some (Some s) → Spec.readOr env key "" = s.
Proof. unfold Spec.readOr. by intros ->. Qed.

Lemma platform_win32_iff env :
  isWindows env = true ↔ env !! "platform" = Some (Some "win32").
Proof.
  unfold isWindows, platform, Js.strictEq.
  rewrite orElse_getProp_readOr, String.eqb_eq. unfold Spec.readOr.
  destruct (env !! "platform") as [[s|]|]; split; intros H;
    try discriminate H; congruence.
Qed.

(** X1: the detector answers false in one situation only: the
    platform key is bound to exactly "win32", the locale signal is off
    and the terminal signal is off. *)
Theorem isUnicodeSupported_false_iff env :
  isUnicodeSupported env = false ↔
  env !! "platform" = Some (Some "win32") ∧
  hasUtf8Locale env = false ∧ hasModernTerminal env = false.
Proof.
  unfold isUnicodeSupported.
  rewrite !orb_false_iff, negb_false_iff, platform_win32_iff. tauto.
Qed.



(** X3: a LANG value that contains "utf-8" in any mix of upper and
    lower case makes the answer true on every platform, win32
    included. *)
Theorem isUnicodeSupported_utf8_any_case env (pre mid post : string) :
  env !! "LANG" = Some (Some (pre +:+ mid +:+ post)) →
  Js.toLowerCase mid = "utf-8" →
  isUnicodeSupported env = true.
Proof.
  intros Hlang Hmid. rewrite isUnicodeSupported_reads.
  rewrite (readOr_bound _ _ _ Hlang), !toLowerCase_app, Hmid.
  rewrite (includes_app_mono _ "utf-8" _ "utf-8") by reflexivity.
  reflexivity.
Qed.

Lemma isUnicodeSupported_utf8_any_case_example :
  Sample.win32Utf8 !! "LANG" = Some (Some ("C." +:+ "UTF-8" +:+ "")) ∧
  Js.toLowerCase "UTF-8" = "utf-8" ∧
  Sample.win32Utf8 !! "platform" = Some (Some "win32") ∧
  isUnicodeSupported Sample.win32Utf8 = true.
Proof.
  do 3 (split; [reflexivity|]).
  apply (isUnicodeSupported_utf8_any_case Sample.win32Utf8 "C." "UTF-8" "");
    reflexivity.
Defined.

(** X4: the platform value is compared as a whole with "win32" and
    touches nothing else: with platform bound to [p], the answer is the
    locale signal or the terminal signal of the mapping, or [p] not
    being "win32". *)
Theorem isUnicodeSupported_set_platform env (p : string) :
  isUnicodeSupported (<["platform" := Some p]> env)
  = hasUtf8Locale env || hasModernTerminal env || negb (String.eqb p "win32").
Proof.
  rewrite isUnicodeSupported_reads, readOr_insert_eq.
  rewrite !(readOr_insert_ne env "platform") by done.
  unfold hasUtf8Locale, hasModernTerminal, lang, colorterm, termProgram.
  by rewrite !orElse_getProp_readOr.
Qed.

(** X5: text added before or after the value of LANG, COLORTERM or
    TERM_PROGRAM never turns a true answer into false. *)
Theorem isUnicodeSupported_extend_value env key (s pre post : string) :
  key ∈ ["LANG"; "COLORTERM"; "TERM_PROGRAM"] →
  env !! key = Some (Some s) →
  isUnicodeSupported env = true →
  isUnicodeSupported (<[key := Some (pre +:+ s +:+ post)]> env) = true.
Proof.
  intros Hkey Hs. rewrite !isUnicodeSupported_reads.
  pose proof (readOr_bound _ _ _ Hs) as Hread.
  assert (Hcases : key = "LANG" ∨ key = "COLORTERM" ∨ key = "TERM_PROGRAM").
  { rewrite !elem_of_cons in Hkey. rewrite elem_of_nil in Hkey. tauto. }
  destruct Hcases as [-> | [-> | ->]];
    rewrite readOr_insert_eq, ?toLowerCase_app;
    [ rewrite !(readOr_insert_ne env "LANG") by done
    | rewrite !(readOr_insert_ne env "COLORTERM") by done
    | rewrite !(readOr_insert_ne env "TERM_PROGRAM") by done ];
    rewrite Hread; intros H; rewrite !orb_true_iff in H;
    repeat match type of H with
           | _ ∨ _ => destruct H as [H | H]
           end;
    rewrite ?(includes_app_mono _ _ _ _ H), ?H, ?orb_true_l, ?orb_true_r;
    reflexivity.
Qed.

Lemma isUnicodeSupported_extend_value_example :
  "TERM_PROGRAM" ∈ ["LANG"; "COLORTERM"; "TERM_PROGRAM"] ∧
  Sample.win32Vscode !! "TERM_PROGRAM" = Some (Some "vscode") ∧
  isUnicodeSupported Sample.win32Vscode = true ∧
  isUnicodeSupported
    (<["TERM_PROGRAM" := Some ("x-" +:+ "vscode" +:+ "-insiders")]>
       Sample.win32Vscode) = true.
Proof.
  assert (Hkey : "TERM_PROGRAM" ∈ ["LANG"; "COLORTERM"; "TERM_PROGRAM"])
    by (do 2 right; left).
  split; [exact Hkey|]. do 2 (split; [reflexivity|]).
  apply (isUnicodeSupported_extend_value Sample.win32Vscode "TERM_PROGRAM"
           "vscode" "x-" "-insiders" Hkey); reflexivity.
Defined.

(** X12: a LANG value that does not contain "utf-8" once lower-cased
    (LANG=C, say) counts as no LANG at all. *)
Theorem isUnicodeSupported_LANG_without_utf8 env (l : string) :
  Js.includes (Js.toLowerCase l) "utf-8" = false →
  isUnicodeSupported (<["LANG" := Some l]> env)
  = isUnicodeSupported (delete "LANG" env).
Proof.
  intros Hl. rewrite !isUnicodeSupported_reads, readOr_insert_eq, Hl.
  rewrite !(readOr_insert_ne env "LANG") by done.
  unfold Spec.readOr. rewrite lookup_delete_eq.
  by rewrite !(lookup_delete_ne env "LANG") by done.
Qed.

Lemma isUnicodeSupported_LANG_without_utf8_example :
  Js.includes (Js.toLowerCase "C") "utf-8" = false ∧
  isUnicodeSupported (<["LANG" := Some "C"]> Sample.win32Utf8) = false ∧
  isUnicodeSupported (delete "LANG" Sample.win32Utf8) = false.
Proof.
  split; [reflexivity|].
  rewrite (isUnicodeSupported_LANG_without_utf8 Sample.win32Utf8 "C")
    by reflexivity.
  split; reflexivity.
Defined.

End DetectorMore.

(** ** More on the theme and the component *)

Section ThemeAndComponentMore.

Import Component.

Implicit Types (figures : Figures.t) (hook : Theme.Hook)
  (content : ReactNode) (v : StatusMessageVariant).

(** The four colours are pairwise different. *)
Lemma colorOf_inj v1 v2 : Spec.colorOf v1 = Spec.colorOf v2 → v1 = v2.
Proof. destruct v1, v2; intros H; (done || discriminate H). Qed.

Lemma icon_style_color v :
  Theme.icon (Theme.styles Theme.statusMessageTheme) {| Theme.variant := v |}
    !! "color"
  = Some (JsString (Spec.colorOf v)).
Proof. by destruct v. Qed.

Lemma icon_style_inj v1 v2 :
  Theme.icon (Theme.styles Theme.statusMessageTheme) {| Theme.variant := v1 |}
  = Theme.icon (Theme.styles Theme.statusMessageTheme)
      {| Theme.variant := v2 |} →
  v1 = v2.
Proof.
  intros H. apply (f_equal (λ m : Props, m !! "color")) in H.
  rewrite !icon_style_color in H. apply colorOf_inj. congruence.
Qed.

(** X6: the icon style tells the variants apart: two variants get the
    same icon style record only if they are the same variant. *)
Theorem icon_style_distinguishes v1 v2 :
  Theme.icon (Theme.styles Theme.statusMessageTheme) {| Theme.variant := v1 |}
  = Theme.icon (Theme.styles Theme.statusMessageTheme)
      {| Theme.variant := v2 |}
  ↔ v1 = v2.
Proof. split; [apply icon_style_inj | by intros ->]. Qed.

(** X7: the colour table of the theme and the icon table the component
    builds have the same own keys, the four variant strings, whatever
    the symbol set. *)
Theorem variant_tables_same_keys figures :
  dom Theme.colorByVariant
    = list_to_set (variantKey <$> [info; success; error; warning]) ∧
  dom (iconByVariant figures) = dom Theme.colorByVariant.
Proof.
  unfold Theme.colorByVariant, iconByVariant.
  rewrite !dom_insert_L, !dom_singleton_L. cbn [fmap list_fmap variantKey].
  cbn [list_to_set foldr]. split; set_solver.
Qed.

(** X8: under the default theme the render loses nothing: two props
    give the same tree exactly when they have the same variant and the
    same children. *)
Theorem StatusMessage_default_injective figures (p1 p2 : StatusMessageProps) :
  StatusMessage figures Theme.useDefaultTheme p1
  = StatusMessage figures Theme.useDefaultTheme p2
  ↔ p1 = p2.
Proof.
  split; [|by intros ->].
  destruct p1 as [c1 v1], p2 as [c2 v2]. rewrite !StatusMessage_tree.
  intros H.
  pose proof
    (f_equal
       (λ t, match t with
             | RElement _ _ (RArray (RElement _ _ (RElement _ p _) :: _)) => p
             | _ => ∅
             end) H) as Hstyle.
  pose proof
    (f_equal
       (λ t, match t with
             | RElement _ _ (RArray [_; RElement _ _ c]) => c
             | _ => RNull
             end) H) as Hcontent.
  cbv beta iota in Hstyle, Hcontent.
  apply icon_style_inj in Hstyle. by subst.
Qed.

(** X9: for every theme hook, the component puts exactly six nodes
    around the content: the text of the selected icon is the fifth node
    in traversal order and the nodes of the content, untouched, come
    last. *)
Theorem StatusMessage_traversal figures hook v content :
  let out :=
    StatusMessage figures hook {| children := content; variant := v |} in
  length (nodes out) = 6 + length (nodes content) ∧
  nodes out !! 4 = Some (RString (Spec.selectedIcon figures v)) ∧
  drop 6 (nodes out) = nodes content.
Proof.
  intros out. subst out. rewrite StatusMessage_tree.
  cbn [nodes app]. rewrite app_nil_r. by repeat split.
Qed.

(** X10: a render reads one symbol of the set only, the one of its
    variant: two symbol sets give the same tree exactly when they agree
    on that symbol. *)
Theorem StatusMessage_reads_one_symbol (f1 f2 : Figures.t) hook v content :
  StatusMessage f1 hook {| children := content; variant := v |}
  = StatusMessage f2 hook {| children := content; variant := v |}
  ↔ match v with
    | info => Figures.info f1 = Figures.info f2
    | success => Figures.tick f1 = Figures.tick f2
    | error => Figures.cross f1 = Figures.cross f2
    | warning => Figures.warning f1 = Figures.warning f2
    end.
Proof.
  rewrite !StatusMessage_tree. split.
  - intros H. injection H as H. destruct v; exact H.
  - intros H. destruct v; cbn [Spec.selectedIcon]; by rewrite H.
Qed.

(** X11: when the four symbols of the set are pairwise different, the
    selected icon identifies the variant. *)
Theorem icon_identifies_variant figures v1 v2 :
  NoDup [Figures.info figures; Figures.tick figures;
         Figures.cross figures; Figures.warning figures] →
  iconByVariant figures !! variantKey v1
  = iconByVariant figures !! variantKey v2 →
  v1 = v2.
Proof.
  intros Hnd. rewrite !iconByVariant_lookup. intros [= Heq].
  apply NoDup_cons in Hnd as [Hinfo Hnd].
  apply NoDup_cons in Hnd as [Htick Hnd].
  apply NoDup_cons in Hnd as [Hcross _].
  repeat rewrite not_elem_of_cons in Hinfo.
  repeat rewrite not_elem_of_cons in Htick.
  repeat rewrite not_elem_of_cons in Hcross.
  destruct v1, v2; cbn [Spec.selectedIcon] in Heq;
    first [reflexivity | exfalso; intuition congruence].
Qed.

Lemma icon_identifies_variant_example :
  NoDup [Figures.info Sample.asciiFigures; Figures.tick Sample.asciiFigures;
         Figures.cross Sample.asciiFigures;
         Figures.warning Sample.asciiFigures] ∧
  iconByVariant Sample.asciiFigures !! variantKey error
  = iconByVariant Sample.asciiFigures !! variantKey error ∧
  error = error.
Proof.
  assert (Hnd : NoDup [Figures.info Sample.asciiFigures;
                       Figures.tick Sample.asciiFigures;
                       Figures.cross Sample.asciiFigures;
                       Figures.warning Sample.asciiFigures])
    by (apply (bool_decide_unpack _); vm_compute; exact I).
  split; [exact Hnd|]. split; [reflexivity|].
  apply (icon_identifies_variant Sample.asciiFigures error error Hnd).
  reflexivity.
Defined.

End ThemeAndComponentMore.
